(** * Interactive OpenAI proxy: a model of [app.py] and its properties

    The application keeps one process-wide dictionary, [open_requests],
    from request identifiers to pending chat-completion requests.  Each
    handler of [app.py] is modelled as a function from the store it finds
    to its outcome (a response, or the Python exception that escapes it)
    and the store it leaves.

    Python values that come out of [json.loads] or go into [JSONResponse]
    are the type [json]; a [dict] is an association list in insertion
    order; [None] is [JNull].  A Python [str] is a [string] whose
    characters are the code points below 256.

    What a library call gives that the program does not determine (the
    body parsed by [request.json()], the URL built by [httpx.URL], the
    response of the upstream, the completion of the draft call, the clock
    and the identifiers drawn) is an argument of the handler: a value, or
    the exception that the call raises. *)

From Stdlib Require Import ZArith List String Ascii Bool Lia.
From stdpp Require Import base gmap strings list fin_maps.

Local Open Scope Z_scope.

(** ** Python values *)

#[local] Set Warnings "-register-all".

(** A Python float.  The program never computes with one: a finite float
    is held by its [repr], and the three values that are not finite, which
    [json.loads] gives for [Infinity], [-Infinity], [NaN] and for a number
    out of range such as [1e999], are kept apart. *)
Inductive pyfloat : Type :=
| Finite (repr : string)
| Infinity
| NegInfinity
| NaN.

Inductive json : Type :=
| JNull
| JBool (b : bool)
| JInt (n : Z)
| JFloat (x : pyfloat)
| JStr (s : string)
| JList (items : list json)
| JDict (fields : list (string * json)).

(** Exceptions the handlers can let escape.  [HTTPException] is the one
    the handlers raise themselves; the others are raised by the Python
    runtime or by a library call. *)
Inductive exn : Type :=
| HTTPException (status_code : Z) (detail : string)
| KeyError (key : string)
| IndexError (msg : string)
| AttributeError (msg : string)
| TypeError (msg : string)
| JSONDecodeError (msg : string)
| ValueError (msg : string)
| RequestValidationError (field : string)
| InvalidURL (msg : string)
| Exception (msg : string).

Inductive result (A : Type) : Type :=
| Ok (a : A)
| Raise (e : exn).
Arguments Ok {A} a.
Arguments Raise {A} e.

Definition bind {A B : Type} (r : result A) (k : A -> result B) : result B :=
  match r with
  | Ok a => k a
  | Raise e => Raise e
  end.

Notation "'let!' x ':=' r 'in' k" := (bind r (fun x => k))
  (at level 10, x name, r at level 100, k at level 200).

(** The double-quote character, for string constants that contain it. *)
Definition dq : string := String (ascii_of_nat 34) EmptyString.

Definition type_name (j : json) : string :=
  match j with
  | JNull => "NoneType"
  | JBool _ => "bool"
  | JInt _ => "int"
  | JFloat _ => "float"
  | JStr _ => "str"
  | JList _ => "list"
  | JDict _ => "dict"
  end.

Definition no_attribute (j : json) (attr : string) : exn :=
  AttributeError ("'" +:+ type_name j +:+ "' object has no attribute '" +:+ attr +:+ "'").

(** *** Dictionaries *)

Section Dict.
Context {V : Type}.

Fixpoint dict_get (k : string) (d : list (string * V)) : option V :=
  match d with
  | [] => None
  | (k', v) :: d' => if String.eqb k k' then Some v else dict_get k d'
  end.

(** [d[k] = v]: an existing key keeps its position, a new key goes last. *)
Fixpoint dict_set (k : string) (v : V) (d : list (string * V)) : list (string * V) :=
  match d with
  | [] => [(k, v)]
  | (k', v') :: d' =>
      if String.eqb k k' then (k', v) :: d' else (k', v') :: dict_set k v d'
  end.
End Dict.

(** [j.get(k, default)] *)
Definition py_get (j : json) (k : string) (default : json) : result json :=
  match j with
  | JDict d => Ok (from_option (fun v => v) default (dict_get k d))
  | _ => Raise (no_attribute j "get")
  end.

(** [j[k]] for a string key [k] *)
Definition py_getitem (j : json) (k : string) : result json :=
  match j with
  | JDict d =>
      match dict_get k d with
      | Some v => Ok v
      | None => Raise (KeyError k)
      end
  | JList _ => Raise (TypeError "list indices must be integers or slices, not str")
  | JStr _ => Raise (TypeError "string indices must be integers, not 'str'")
  | _ => Raise (TypeError ("'" +:+ type_name j +:+ "' object is not subscriptable"))
  end.

(** [k in j] for a string [k]: key membership in a dict, element
    membership in a list, substring test in a str. *)
Definition is_str (k : string) (j : json) : bool :=
  match j with
  | JStr s => String.eqb k s
  | _ => false
  end.

Fixpoint has_substring (k s : string) : bool :=
  String.prefix k s ||
  match s with
  | EmptyString => false
  | String _ s' => has_substring k s'
  end.

Definition py_contains (k : string) (j : json) : result bool :=
  match j with
  | JDict d => Ok (bool_decide (is_Some (dict_get k d)))
  | JList l => Ok (existsb (is_str k) l)
  | JStr s => Ok (has_substring k s)
  | _ => Raise (TypeError ("argument of type '" +:+ type_name j +:+ "' is not iterable"))
  end.

(** [for m in j]: the elements of a list, the keys of a dict, the
    characters of a str. *)
Fixpoint chars (s : string) : list string :=
  match s with
  | EmptyString => []
  | String c s' => String c EmptyString :: chars s'
  end.

Definition py_iter (j : json) : result (list json) :=
  match j with
  | JList l => Ok l
  | JDict d => Ok (map (fun kv => JStr (fst kv)) d)
  | JStr s => Ok (map JStr (chars s))
  | _ => Raise (TypeError ("'" +:+ type_name j +:+ "' object is not iterable"))
  end.

(** *** Strings *)

(** [str.isspace] on the code points below 256. *)
Definition isspace (c : ascii) : bool :=
  let n := N_of_ascii c in
  ((9 <=? n) && (n <=? 13) || (28 <=? n) && (n <=? 32) || (n =? 133) || (n =? 160))%N.

Definition is_empty (s : string) : bool :=
  match s with
  | EmptyString => true
  | String _ _ => false
  end.

(** [s.split()]: the maximal runs of non-whitespace characters. *)
Fixpoint split_from (word s : string) : list string :=
  match s with
  | EmptyString => if is_empty word then [] else [word]
  | String c s' =>
      if isspace c
      then (if is_empty word then split_from EmptyString s'
            else word :: split_from EmptyString s')
      else split_from (word +:+ String c EmptyString) s'
  end.

Definition split (s : string) : list string := split_from EmptyString s.

(** [s.strip()] *)
Fixpoint lstrip (s : string) : string :=
  match s with
  | EmptyString => EmptyString
  | String c s' => if isspace c then lstrip s' else s
  end.

Fixpoint rstrip (s : string) : string :=
  match s with
  | EmptyString => EmptyString
  | String c s' =>
      let r := rstrip s' in
      if is_empty r && isspace c then EmptyString else String c r
  end.

Definition strip (s : string) : string := rstrip (lstrip s).

(** [s.lower()] on the code points below 256: the ASCII capitals and the
    Latin-1 capitals (all of 192..222 but the multiplication sign 215). *)
Definition lower_char (c : ascii) : ascii :=
  let n := N_of_ascii c in
  if ((65 <=? n) && (n <=? 90) || (192 <=? n) && (n <=? 222) && negb (n =? 215))%N
  then ascii_of_N (n + 32)
  else c.

Fixpoint lower (s : string) : string :=
  match s with
  | EmptyString => EmptyString
  | String c s' => String (lower_char c) (lower s')
  end.

(** [len(j.split())] *)
Definition py_split_len (j : json) : result Z :=
  match j with
  | JStr s => Ok (Z.of_nat (length (split s)))
  | _ => Raise (no_attribute j "split")
  end.

(** [a + b] on the values the handlers add. *)
Definition py_add (a b : json) : result json :=
  match a, b with
  | JInt x, JInt y => Ok (JInt (x + y))
  | _, _ =>
      Raise (TypeError ("unsupported operand type(s) for +: '" +:+ type_name a
                        +:+ "' and '" +:+ type_name b +:+ "'"))
  end.

(** *** Assignment through a path: [j[p1][p2]...[k] = v] *)

Inductive step : Type :=
| Key (k : string)
| Index (i : nat).

Definition not_subscriptable (j : json) : exn :=
  TypeError ("'" +:+ type_name j +:+ "' object is not subscriptable").

Fixpoint setitem_at (path : list step) (k : string) (v : json) (j : json) : result json :=
  match path with
  | [] =>
      match j with
      | JDict d => Ok (JDict (dict_set k v d))
      | _ => Raise (TypeError ("'" +:+ type_name j
                               +:+ "' object does not support item assignment"))
      end
  | Key s :: path' =>
      match j with
      | JDict d =>
          match dict_get s d with
          | Some x => let! x' := setitem_at path' k v x in Ok (JDict (dict_set s x' d))
          | None => Raise (KeyError s)
          end
      | _ => Raise (not_subscriptable j)
      end
  | Index i :: path' =>
      match j with
      | JList l =>
          match l !! i with
          | Some x => let! x' := setitem_at path' k v x in Ok (JList (<[i := x']> l))
          | None => Raise (IndexError "list index out of range")
          end
      | _ => Raise (not_subscriptable j)
      end
  end.

(** ** The pending request store *)

(** [class ChatCompletionRequest(BaseModel)]: the original payload and the
    response, [None] until a response is submitted. *)
Record ChatCompletionRequest : Type := {
  request : json;
  response : json;
}.

Definition new_request (payload : json) : ChatCompletionRequest :=
  {| request := payload; response := JNull |}.

Definition set_response (r : ChatCompletionRequest) (resp : json) : ChatCompletionRequest :=
  {| request := request r; response := resp |}.

(** [x is None] *)
Definition is_None (j : json) : bool :=
  match j with
  | JNull => true
  | _ => false
  end.

(** [open_requests] *)
Abbreviation store := (gmap string ChatCompletionRequest).

(** ** Responses *)

Definition bytes : Type := list Byte.byte.

Inductive http_response : Type :=
| JSONResponse (content : json)
| HTMLResponse (content : string)
| RedirectResponse (url : string)
| StreamingResponse (chunks : list bytes) (status_code : Z)
                    (headers : list (string * string)).

(** The outcome of a handler: what it returns or lets escape, and the
    store it leaves. *)
Definition outcome : Type := result http_response * store.

(** The status the framework answers with: a response's own status, the
    status of an [HTTPException], 422 for a request that fails the
    validation of the declared parameters, and 500 for any other exception
    that escapes a handler. *)
Definition response_status (r : http_response) : Z :=
  match r with
  | JSONResponse _ => 200
  | HTMLResponse _ => 200
  | RedirectResponse _ => 307
  | StreamingResponse _ status _ => status
  end.

Definition status_of (r : result http_response) : Z :=
  match r with
  | Ok resp => response_status resp
  | Raise (HTTPException status _) => status
  | Raise (RequestValidationError _) => 422
  | Raise _ => 500
  end.

Definition client_error (status : Z) : bool := (400 <=? status) && (status <? 500).

(** ** [POST /r/{request_id}]: [modify_request] *)

(** A form field declared [Form(None)]: the submitted string, or [None]. *)
Definition form_value (field : option string) : json :=
  match field with
  | Some s => JStr s
  | None => JNull
  end.

(** [sum(len(m.get("content", "").split()) for m in messages)] *)
Fixpoint sum_tokens (messages : list json) (acc : Z) : result Z :=
  match messages with
  | [] => Ok acc
  | m :: rest =>
      let! c := py_get m "content" (JStr "") in
      let! n := py_split_len c in
      sum_tokens rest (acc + n)
  end.

Definition prompt_tokens (payload : json) : result Z :=
  let! messages := py_get payload "messages" (JList []) in
  let! items := py_iter messages in
  sum_tokens items 0.

Definition message_path : list step := [Key "choices"; Index 0%nat; Key "message"].

(** Lines 190 to 224: the response built for a submission.  [now] is
    [int(time.time())] and [call_uuid] the value of [uuid.uuid4()]. *)
Definition build_response (now : Z) (call_uuid : string) (request_id : string)
    (payload : json) (response_type : string)
    (content tool_name tool_arguments : option string) : result json :=
  let! model := py_get payload "model" (JStr "gpt-3.5-turbo") in
  let! prompt := prompt_tokens payload in
  let response :=
    JDict [("id", JStr ("chatcmpl-" +:+ request_id));
           ("object", JStr "chat.completion");
           ("created", JInt now);
           ("model", model);
           ("choices", JList [JDict [("index", JInt 0);
                                     ("message", JDict []);
                                     ("finish_reason", JStr "stop")]]);
           ("usage", JDict [("prompt_tokens", JInt prompt);
                            ("completion_tokens", JInt 0);
                            ("total_tokens", JInt 0)])] in
  let! response :=
    if String.eqb response_type "content" then
      let! response := setitem_at message_path "content" (form_value content) response in
      let! n := py_split_len (form_value content) in
      setitem_at [Key "usage"] "completion_tokens" (JInt n) response
    else
      let tool_calls :=
        JList [JDict [("id", JStr ("call_" +:+ call_uuid));
                      ("type", JStr "function");
                      ("function", JDict [("name", form_value tool_name);
                                          ("arguments", form_value tool_arguments)])]] in
      let! response := setitem_at message_path "tool_calls" tool_calls response in
      let! response := setitem_at message_path "content" JNull response in
      let! n1 := py_split_len (form_value tool_name) in
      let! n2 := py_split_len (form_value tool_arguments) in
      setitem_at [Key "usage"] "completion_tokens" (JInt (n1 + n2)) response in
  let! usage := py_getitem response "usage" in
  let! p := py_getitem usage "prompt_tokens" in
  let! c := py_getitem usage "completion_tokens" in
  let! total := py_add p c in
  setitem_at [Key "usage"] "total_tokens" total response.

Definition not_found : exn := HTTPException 404 "Request not found".

Definition modify_request (now : Z) (call_uuid : string) (request_id : string)
    (response_type : string) (content tool_name tool_arguments : option string)
    (open_requests : store) : outcome :=
  match open_requests !! request_id with
  | None => (Raise not_found, open_requests)
  | Some entry =>
      match build_response now call_uuid request_id (request entry) response_type
                           content tool_name tool_arguments with
      | Raise e => (Raise e, open_requests)
      | Ok resp =>
          (Ok (RedirectResponse "/"), <[request_id := set_response entry resp]> open_requests)
      end
  end.



(** ** [POST /v1/chat/completions]: [chat_completions] *)

(** The loop condition of the waiter:
    [request_id in open_requests and open_requests[request_id].response is None]. *)
Definition still_pending (request_id : string) (open_requests : store) : bool :=
  match open_requests !! request_id with
  | Some entry => is_None (response entry)
  | None => false
  end.

(** The waiter's loop.  Each [await asyncio.sleep(1)] hands control to the
    other tasks of the process; [others] lists what they do to the store
    during each sleep, in order.  [None]: the loop is still running when
    the list ends. *)
Fixpoint wait (others : list (store -> store)) (request_id : string)
    (open_requests : store) : option store :=
  if still_pending request_id open_requests then
    match others with
    | [] => None
    | task :: rest => wait rest request_id (task open_requests)
    end
  else Some open_requests.

(** [JSONResponse] renders its content when it is constructed, with
    [json.dumps(content, allow_nan=False, ...)]: a content that holds a
    float that is not finite, at any depth, makes the constructor raise
    [ValueError]. *)
Fixpoint json_compliant (j : json) : bool :=
  match j with
  | JFloat (Finite _) => true
  | JFloat _ => false
  | JList items => forallb json_compliant items
  | JDict fields =>
      forallb (fun field => match field with (_, v) => json_compliant v end) fields
  | _ => true
  end.

Definition out_of_range : exn :=
  ValueError "Out of range float values are not JSON compliant".

(** Lines 53 to 55, after the loop: the lookup, the [del], and then the
    construction of the response. *)
Definition consume (request_id : string) (open_requests : store) : outcome :=
  match open_requests !! request_id with
  | None => (Raise (KeyError request_id), open_requests)
  | Some entry =>
      let open_requests := delete request_id open_requests in
      if json_compliant (response entry)
      then (Ok (JSONResponse (response entry)), open_requests)
      else (Raise out_of_range, open_requests)
  end.

(** [request_id] is the value of [uuid.uuid4()] and [body] what
    [await request.json()] gives: the parsed body, or the exception it
    raises on a body that is not JSON. *)
Definition chat_completions (request_id : string) (body : result json)
    (others : list (store -> store)) (open_requests : store) : option outcome :=
  match body with
  | Raise e => Some (Raise e, open_requests)
  | Ok payload =>
      let open_requests := <[request_id := new_request payload]> open_requests in
      match wait others request_id open_requests with
      | None => None
      | Some open_requests => Some (consume request_id open_requests)
      end
  end.

(** ** [GET /r/{request_id}]: [get_request] *)

(** The part of the completion object of the [openai] client that the
    handler reads. *)
Module openai.
Record Function : Type := { name : string; arguments : string }.
Record ToolCall : Type := { function : Function }.
Record Message : Type := {
  content : option string;
  tool_calls : option (list ToolCall);
}.
Record Choice : Type := { message : Message }.
Record ChatCompletion : Type := { choices : list Choice }.
End openai.

Record draft : Type := {
  draft_content : string;
  draft_tool_name : string;
  draft_tool_arguments : string;
}.

Definition empty_draft : draft :=
  {| draft_content := EmptyString;
     draft_tool_name := EmptyString;
     draft_tool_arguments := EmptyString |}.

(** [if k in payload: kwargs[k] = payload[k]] *)
Definition copy_field (k : string) (payload : json) (kwargs : list (string * json))
    : result (list (string * json)) :=
  let! present := py_contains k payload in
  if (present : bool) then
    let! v := py_getitem payload k in
    Ok (dict_set k v kwargs)
  else Ok kwargs.

Definition draft_kwargs (payload : json) : result (list (string * json)) :=
  let! kwargs := copy_field "messages" payload [] in
  let! kwargs := copy_field "tools" payload kwargs in
  copy_field "tool_choice" payload kwargs.

(** Lines 124 to 133, inside the [try]. *)
Definition read_draft (completion : openai.ChatCompletion) : result draft :=
  match openai.choices completion with
  | [] => Raise (IndexError "list index out of range")
  | choice :: _ =>
      let message := openai.message choice in
      match openai.tool_calls message with
      | Some (tool_call :: _) =>
          Ok {| draft_content := EmptyString;
                draft_tool_name := openai.name (openai.function tool_call);
                draft_tool_arguments := openai.arguments (openai.function tool_call) |}
      | _ =>
          Ok {| draft_content :=
                  match openai.content message with
                  | Some s => if is_empty s then EmptyString else strip s
                  | None => EmptyString
                  end;
                draft_tool_name := EmptyString;
                draft_tool_arguments := EmptyString |}
      end
  end.

Definition nl : string := String (ascii_of_nat 10) EmptyString.
Definition q (s : string) : string := dq +:+ s +:+ dq.

(** The f-string of lines 137 to 172; [dumped] is
    [json.dumps(request.request, indent=2)]. *)
Definition html_content (dumped request_id content tool_name tool_arguments : string)
    : string :=
  nl
  +:+ "    <html>" +:+ nl
  +:+ "        <head>" +:+ nl
  +:+ "            <title>Handle Chat Request</title>" +:+ nl
  +:+ "        </head>" +:+ nl
  +:+ "        <body>" +:+ nl
  +:+ "            <h2>Request:</h2>" +:+ nl
  +:+ "            <pre><code>" +:+ dumped +:+ "</code></pre>" +:+ nl
  +:+ "            <h2>Response:</h2>" +:+ nl
  +:+ "            <form id=" +:+ (q "modifyForm") +:+ " action=" +:+ dq +:+ "/r/"
      +:+ request_id +:+ (q " method=") +:+ "post" +:+ dq +:+ ">" +:+ nl
  +:+ "                <label for=" +:+ (q "responseType") +:+ ">Response Type:</label>"
      +:+ nl
  +:+ "                <select id=" +:+ (q "responseType") +:+ " name="
      +:+ (q "response_type") +:+ ">" +:+ nl
  +:+ "                    <option value=" +:+ (q "content") +:+ " "
      +:+ (if is_empty tool_name then "selected" else EmptyString)
      +:+ ">Content</option>" +:+ nl
  +:+ "                    <option value=" +:+ (q "tool_call") +:+ " "
      +:+ (if is_empty tool_name then EmptyString else "selected")
      +:+ ">Tool Call</option>" +:+ nl
  +:+ "                </select><br><br>" +:+ nl
  +:+ "                <div id=" +:+ (q "contentSection") +:+ " style=" +:+ dq
      +:+ "display: " +:+ (if is_empty tool_name then "block" else "none") +:+ dq
      +:+ ">" +:+ nl
  +:+ "                    <label for=" +:+ (q "responseBody")
      +:+ ">Content:</label><br>" +:+ nl
  +:+ "                    <textarea id=" +:+ (q "responseBody") +:+ " name="
      +:+ (q "content") +:+ " rows=" +:+ (q "10") +:+ " cols=" +:+ (q "50") +:+ ">"
      +:+ content +:+ "</textarea><br>" +:+ nl
  +:+ "                </div>" +:+ nl
  +:+ "                <div id=" +:+ (q "toolSection") +:+ " style=" +:+ dq
      +:+ "display: " +:+ (if is_empty tool_name then "none" else "block") +:+ dq
      +:+ ">" +:+ nl
  +:+ "                    <label for=" +:+ (q "toolName") +:+ ">Tool Name:</label><br>"
      +:+ nl
  +:+ "                    <input type=" +:+ (q "text") +:+ " id=" +:+ (q "toolName")
      +:+ " name=" +:+ (q "tool_name") +:+ " value=" +:+ (q tool_name) +:+ "><br>"
      +:+ nl
  +:+ "                    <label for=" +:+ (q "toolArguments")
      +:+ ">Tool Arguments (JSON):</label><br>" +:+ nl
  +:+ "                    <textarea id=" +:+ (q "toolArguments") +:+ " name="
      +:+ (q "tool_arguments") +:+ " rows=" +:+ (q "10") +:+ " cols=" +:+ (q "50")
      +:+ " autofocus>" +:+ tool_arguments +:+ "</textarea><br>" +:+ nl
  +:+ "                </div>" +:+ nl
  +:+ "                <button type=" +:+ (q "submit") +:+ ">Submit</button>" +:+ nl
  +:+ "            </form>" +:+ nl
  +:+ "            <script>" +:+ nl
 
      +:+ "                document.getElementById('responseType').addEventListener('change', function() {"
      +:+ nl
 
      +:+ "                    document.getElementById('contentSection').style.display = this.value === 'content' ? 'block' : 'none';"
      +:+ nl
 
      +:+ "                    document.getElementById('toolSection').style.display = this.value === 'tool_call' ? 'block' : 'none';"
      +:+ nl
  +:+ "                });" +:+ nl
  +:+ "            </script>" +:+ nl
  +:+ "        </body>" +:+ nl
  +:+ "    </html>" +:+ nl
  +:+ "    ".

Section Review.
(** [json.dumps(_, indent=2)] *)
Variable json_dumps : json -> string.
(** [openai_client.chat.completions.create(model="gpt-3.5-turbo", **kwargs)] *)
Variable create : list (string * json) -> result openai.ChatCompletion.

(** Lines 116 to 135: the [try] and its [except Exception]. *)
Definition draft_for (kwargs : list (string * json)) : draft :=
  match (let! completion := create kwargs in read_draft completion) with
  | Ok d => d
  | Raise _ => empty_draft
  end.

Definition get_request (request_id : string) (open_requests : store) : outcome :=
  match open_requests !! request_id with
  | None => (Raise not_found, open_requests)
  | Some entry =>
      match draft_kwargs (request entry) with
      | Raise e => (Raise e, open_requests)
      | Ok kwargs =>
          let d := draft_for kwargs in
          (Ok (HTMLResponse
                 (html_content (json_dumps (request entry)) request_id
                    (draft_content d) (draft_tool_name d) (draft_tool_arguments d))),
           open_requests)
      end
  end.
End Review.

(** ** [/v1/{path:path}]: [proxy_to_openai] *)

(** The incoming request, as the handler reads it. *)
Module starlette.
Record Request : Type := {
  method : string;
  query : string;                      (* request.url.query *)
  headers : list (string * string);    (* request.headers.items() *)
  body : bytes;                        (* await request.body() *)
}.
End starlette.

(** The arguments that the handler gives to [proxy_client.build_request],
    with the URL that [httpx.URL] built, of a type [U] left to the
    library.  The request that the client builds from them and sends also
    has what the client adds: the [Host] of the upstream, the default
    headers and the cookies of the client.  Of the upstream's response,
    the header lines as they arrive, in order, and the raw chunks of the
    body. *)
Module httpx.
Module Request.
Record t (U : Type) : Type := {
    method : string;
    url : U;
    headers : list (string * string);
    content : bytes;
  }.
Arguments method {U} _.
Arguments url {U} _.
Arguments headers {U} _.
Arguments content {U} _.
End Request.
Module Response.
Record t : Type := {
    status_code : Z;
    headers : list (string * string);
    aiter_raw : list bytes;
  }.
End Response.
End httpx.



Definition is_host (key : string) : bool := String.eqb (lower key) "host".

(** [{key: value for key, value in items if key.lower() != "host"}] *)
Fixpoint header_dict (items : list (string * string)) (acc : list (string * string))
    : list (string * string) :=
  match items with
  | [] => acc
  | (key, value) :: rest =>
      header_dict rest (if is_host key then acc else dict_set key value acc)
  end.

(** Lines 62 to 64: [headers]. *)
Definition forwarded_headers (request : starlette.Request) : list (string * string) :=
  header_dict (starlette.headers request) [].


Section Proxy.
Context {U : Type}.

(** [httpx.URL(path=_, query=_)]: the URL, or the exception of a path or
    a query that the library does not accept. *)
Variable URL : string -> bytes -> result U.

(** [proxy_client.build_request] and [proxy_client.send(_, stream=True)]:
    the response of the upstream to the request that the client builds
    from these arguments, or the exception of a failed exchange. *)
Variable send : httpx.Request.t U -> result httpx.Response.t.

End Proxy.

(** * Vocabulary of the properties *)

(** ** Reading a response *)

(** [j[p1][p2]...]: the value at a path, if there is one. *)
Fixpoint get_in (path : list step) (j : json) : option json :=
  match path, j with
  | [], _ => Some j
  | Key k :: path', JDict d =>
      match dict_get k d with
      | Some x => get_in path' x
      | None => None
      end
  | Index i :: path', JList l =>
      match l !! i with
      | Some x => get_in path' x
      | None => None
      end
  | _, _ => None
  end.

(** The shape of every response that [build_response] returns. *)
Definition completion_response (request_id : string) (now : Z) (model : json)
    (prompt : Z) (message : json) (completion : Z) : json :=
  JDict [("id", JStr ("chatcmpl-" +:+ request_id));
         ("object", JStr "chat.completion");
         ("created", JInt now);
         ("model", model);
         ("choices", JList [JDict [("index", JInt 0);
                                   ("message", message);
                                   ("finish_reason", JStr "stop")]]);
         ("usage", JDict [("prompt_tokens", JInt prompt);
                          ("completion_tokens", JInt completion);
                          ("total_tokens", JInt (prompt + completion))])].

Definition content_message (content : string) : json :=
  JDict [("content", JStr content)].

Definition tool_call_message (call_uuid tool_name tool_arguments : string) : json :=
  JDict [("tool_calls",
          JList [JDict [("id", JStr ("call_" +:+ call_uuid));
                        ("type", JStr "function");
                        ("function", JDict [("name", JStr tool_name);
                                            ("arguments", JStr tool_arguments)])]]);
         ("content", JNull)].

Definition tokens (s : string) : Z := Z.of_nat (length (split s)).

Definition default_model : json := JStr "gpt-3.5-turbo".

(** What a submission must be for [build_response] to return: the two
    branches of line 206. *)
Inductive submission (call_uuid response_type : string)
    (content tool_name tool_arguments : option string) : json -> Z -> Prop :=
| submit_content c :
    String.eqb response_type "content" = true ->
    content = Some c ->
    submission call_uuid response_type content tool_name tool_arguments
      (content_message c) (tokens c)
| submit_tool_call tn ta :
    String.eqb response_type "content" = false ->
    tool_name = Some tn ->
    tool_arguments = Some ta ->
    submission call_uuid response_type content tool_name tool_arguments
      (tool_call_message call_uuid tn ta) (tokens tn + tokens ta).

(** ** The response built by a submission *)

Definition choice0 : list step := [Key "choices"; Index 0%nat].
Definition message0 : list step := choice0 ++ [Key "message"].

(** The envelope of a completion response for request [request_id] with
    original payload [payload], built at time [now]. *)
Definition has_envelope (now : Z) (request_id : string) (payload resp : json) : Prop :=
  get_in [Key "id"] resp = Some (JStr ("chatcmpl-" +:+ request_id)) /\
  get_in [Key "object"] resp = Some (JStr "chat.completion") /\
  get_in [Key "created"] resp = Some (JInt now) /\
  (exists d, payload = JDict d /\
     get_in [Key "model"] resp
     = Some (match dict_get "model" d with
             | Some model => model
             | None => JStr "gpt-3.5-turbo"
             end)) /\
  (exists choice, get_in [Key "choices"] resp = Some (JList [choice]) /\
     get_in [Key "finish_reason"] choice = Some (JStr "stop")).

(** The usage counters of a response. *)
Definition has_usage (prompt completion total : Z) (resp : json) : Prop :=
  get_in [Key "usage"; Key "prompt_tokens"] resp = Some (JInt prompt) /\
  get_in [Key "usage"; Key "completion_tokens"] resp = Some (JInt completion) /\
  get_in [Key "usage"; Key "total_tokens"] resp = Some (JInt total).

(** The message carries exactly one tool call, with the given function
    name and arguments string, and a null content. *)
Definition single_tool_call (tool_name tool_arguments : string) (resp : json) : Prop :=
  get_in (message0 ++ [Key "content"]) resp = Some JNull /\
  exists call,
    get_in (message0 ++ [Key "tool_calls"]) resp = Some (JList [call]) /\
    get_in [Key "type"] call = Some (JStr "function") /\
    get_in [Key "function"] call
    = Some (JDict [("name", JStr tool_name); ("arguments", JStr tool_arguments)]).

(** [{"role": "user", "content": "hi"}] *)
Definition hi_messages : json :=
  JList [JDict [("role", JStr "user"); ("content", JStr "hi")]].

(** ['{"q":"x"}'] *)
Definition lookup_arguments : string :=
  "{" +:+ q "q" +:+ ":" +:+ q "x" +:+ "}".

Definition hi_payload : json :=
  JDict [("model", JStr "gpt-4"); ("messages", hi_messages)].

(** A store with one pending, unresolved request. *)
Definition one_pending : store := {["r1" := new_request hi_payload]}.

(** ** Resolving twice *)

(** A second resolve is rejected: it fails and leaves the store as the
    first resolve left it. *)
Definition second_resolve_rejected (first second : store -> outcome) (st : store) : Prop :=
  let st1 := snd (first st) in
  (exists r, fst (first st) = Ok r) /\
  (exists e, fst (second st1) = Raise e) /\
  snd (second st1) = st1.

Definition first_resolve : store -> outcome :=
  modify_request 1 "u1" "r1" "content" (Some "first answer") None None.

Definition second_resolve : store -> outcome :=
  modify_request 2 "u2" "r1" "content" (Some "second") None None.

(** ** A body that is not JSON *)

(** The call is rejected with a client error, and the store is untouched. *)
Definition rejected_as_client_error (o : option outcome) (st : store) : Prop :=
  exists r st', o = Some (r, st') /\ client_error (status_of r) = true /\ st' = st.

Definition malformed : result json :=
  Raise (JSONDecodeError "Expecting value: line 1 column 1 (char 0)").

(** ** The passthrough proxy *)





Definition join_values (first : string) (more : list string) : string :=
  fold_left (fun joined value => joined +:+ ", " +:+ value) more first.





(** A request that repeats a header name. *)
Definition two_accepts : starlette.Request :=
  {| starlette.method := "GET";
     starlette.query := EmptyString;
     starlette.headers := [("host", "localhost:8000");
                           ("accept", "text/html");
                           ("accept", "application/json")];
     starlette.body := [] |}.


(** ** Schedules of the other tasks *)

(** The store after the tasks have run, one after the other. *)
Definition run (tasks : list (store -> store)) (st : store) : store :=
  fold_left (fun st task => task st) tasks st.

(** A task that leaves the entry [entry] of [request_id] in place. *)
Definition keeps (request_id : string) (entry : ChatCompletionRequest)
    (task : store -> store) : Prop :=
  forall st : store, st !! request_id = Some entry -> task st !! request_id = Some entry.

(** The effect on the store of a [POST /r/{request_id}] handled during a
    sleep of the waiter. *)
Definition resolve (now : Z) (call_uuid request_id response_type : string)
    (content tool_name tool_arguments : option string) : store -> store :=
  fun st =>
    snd (modify_request now call_uuid request_id response_type
           content tool_name tool_arguments st).

(** The task is a [POST /r/{id}], for some id and some form. *)
Definition is_resolve (task : store -> store) : Prop :=
  exists now call_uuid request_id rt c tn ta,
    task = resolve now call_uuid request_id rt c tn ta.



(** ** Messages whose tokens can be counted *)

(** The content that [m.get("content", "")] reads: the field, or the empty
    string when the message has none. *)
Definition content_of (fields : list (string * json)) : json :=
  match dict_get "content" fields with
  | Some v => v
  | None => JStr EmptyString
  end.

(** A message is a dict whose content, when it has one, is a string. *)
Definition countable_message (m : json) : bool :=
  match m with
  | JDict fields =>
      match content_of fields with
      | JStr _ => true
      | _ => false
      end
  | _ => false
  end.

Definition message_tokens (m : json) : Z :=
  match m with
  | JDict fields =>
      match content_of fields with
      | JStr s => tokens s
      | _ => 0
      end
  | _ => 0
  end.

Definition total_tokens (messages : list json) : Z :=
  fold_right (fun m acc => message_tokens m + acc) 0 messages.

(** A conversation with an assistant turn that only calls a tool: its
    content is [null]. *)
Definition tool_turn_payload : json :=
  JDict [("model", JStr "gpt-4");
         ("messages",
          JList [JDict [("role", JStr "user"); ("content", JStr "what is the weather")];
                 JDict [("role", JStr "assistant"); ("content", JNull)]])].

(** ** Words and whitespace *)

Fixpoint all_chars (p : ascii -> bool) (s : string) : bool :=
  match s with
  | EmptyString => true
  | String c s' => p c && all_chars p s'
  end.

Definition blank (s : string) : bool := all_chars isspace s.

(** A word: not empty, and without whitespace. *)
Definition is_word (s : string) : bool :=
  negb (is_empty s) && all_chars (fun c => negb (isspace c)) s.

(** [" ".join(words)] *)
Fixpoint join_words (words : list string) : string :=
  match words with
  | [] => EmptyString
  | [w] => w
  | w :: rest => w +:+ " " +:+ join_words rest
  end.

Definition starts_with_space (s : string) : bool :=
  match s with
  | EmptyString => false
  | String c _ => isspace c
  end.

Fixpoint ends_with_space (s : string) : bool :=
  match s with
  | EmptyString => false
  | String c EmptyString => isspace c
  | String _ s' => ends_with_space s'
  end.

(** ** Payloads and headers *)

(** A JSON value that is neither a container nor a string. *)
Definition is_scalar (j : json) : bool :=
  match j with
  | JNull | JBool _ | JInt _ | JFloat _ => true
  | _ => false
  end.

(** The fields of the original request that the draft call receives. *)
Definition is_draft_field (k : string) : bool :=
  String.eqb k "messages" || String.eqb k "tools" || String.eqb k "tool_choice".

(** The sixteen ways to spell [host]. *)
Definition host_spellings : list string :=
  h ← ["h"; "H"]; o ← ["o"; "O"]; s ← ["s"; "S"]; t ← ["t"; "T"];
  [h +:+ o +:+ s +:+ t].

(** ** The values of [response_type] *)


(** * Properties *)

(** ** Python strings *)

Example split_example :
  split ("  hello   world" +:+ String (ascii_of_nat 10) " x ") = ["hello"; "world"; "x"].
Proof. reflexivity. Qed.

(** ** The closed form of [build_response] *)

Lemma build_response_content now call_uuid request_id payload c tn ta model p :
  py_get payload "model" default_model = Ok model ->
  prompt_tokens payload = Ok p ->
  build_response now call_uuid request_id payload "content" (Some c) tn ta
  = Ok (completion_response request_id now model p (content_message c) (tokens c)).
Proof.
  intros Hmodel Hprompt. unfold build_response, default_model in *.
  rewrite Hmodel, Hprompt. reflexivity.
Qed.

Lemma build_response_tool_call now call_uuid request_id payload rt c tn ta model p :
  String.eqb rt "content" = false ->
  py_get payload "model" default_model = Ok model ->
  prompt_tokens payload = Ok p ->
  build_response now call_uuid request_id payload rt c (Some tn) (Some ta)
  = Ok (completion_response request_id now model p
          (tool_call_message call_uuid tn ta) (tokens tn + tokens ta)).
Proof.
  intros Hrt Hmodel Hprompt. unfold build_response, default_model in *.
  rewrite Hmodel, Hprompt. cbn [bind]. rewrite Hrt. reflexivity.
Qed.

Lemma build_response_inv now call_uuid request_id payload rt c tn ta resp :
  build_response now call_uuid request_id payload rt c tn ta = Ok resp ->
  exists model p message completion,
    py_get payload "model" default_model = Ok model /\
    prompt_tokens payload = Ok p /\
    submission call_uuid rt c tn ta message completion /\
    resp = completion_response request_id now model p message completion.
Proof.
  unfold build_response, default_model.
  destruct (py_get payload "model" _) as [model|] eqn:Hmodel; [|discriminate].
  destruct (prompt_tokens payload) as [p|] eqn:Hprompt; [|discriminate].
  cbn [bind].
  destruct (String.eqb rt "content") eqn:Hrt.
  - destruct c as [c|]; [|discriminate].
    intros H. exists model, p, (content_message c), (tokens c).
    repeat split; [by eapply submit_content|].
    by inversion H.
  - destruct tn as [tn|]; [|discriminate].
    destruct ta as [ta|]; [|discriminate].
    intros H. exists model, p, (tool_call_message call_uuid tn ta), (tokens tn + tokens ta).
    repeat split; [by eapply submit_tool_call|].
    by inversion H.
Qed.

Lemma modify_request_found now call_uuid request_id rt c tn ta st entry resp :
  st !! request_id = Some entry ->
  build_response now call_uuid request_id (request entry) rt c tn ta = Ok resp ->
  modify_request now call_uuid request_id rt c tn ta st
  = (Ok (RedirectResponse "/"), <[request_id := set_response entry resp]> st).
Proof. intros Hentry Hresp. unfold modify_request. by rewrite Hentry, Hresp. Qed.

Lemma modify_request_inv now call_uuid request_id rt c tn ta st r st' :
  modify_request now call_uuid request_id rt c tn ta st = (Ok r, st') ->
  exists entry resp,
    st !! request_id = Some entry /\
    build_response now call_uuid request_id (request entry) rt c tn ta = Ok resp /\
    r = RedirectResponse "/" /\
    st' = <[request_id := set_response entry resp]> st.
Proof.
  unfold modify_request.
  destruct (st !! request_id) as [entry|]; [|discriminate].
  destruct (build_response _ _ _ _ _ _ _ _) as [resp|] eqn:Hresp; [|discriminate].
  intros H. inversion H. by exists entry, resp.
Qed.

Lemma modify_request_absent now call_uuid request_id rt c tn ta st :
  st !! request_id = None ->
  modify_request now call_uuid request_id rt c tn ta st = (Raise not_found, st).
Proof. intros H. unfold modify_request. by rewrite H. Qed.

Lemma prompt_tokens_dict payload p :
  prompt_tokens payload = Ok p -> exists d, payload = JDict d.
Proof. destruct payload; try discriminate. eauto. Qed.

(** ** The response built by a submission *)

Lemma completion_response_envelope now request_id d model p message completion :
  py_get (JDict d) "model" default_model = Ok model ->
  has_envelope now request_id (JDict d)
    (completion_response request_id now model p message completion).
Proof.
  intros Hmodel. cbn in Hmodel. injection Hmodel as <-.
  repeat split.
  - exists d. split; [done|]. cbn. by destruct (dict_get "model" d).
  - by eexists.
Qed.

Lemma completion_response_usage now request_id model p message completion :
  has_usage p completion (p + completion)
    (completion_response request_id now model p message completion).
Proof. by repeat split. Qed.

Lemma tool_call_message_single now request_id model p call_uuid tn ta completion :
  single_tool_call tn ta
    (completion_response request_id now model p (tool_call_message call_uuid tn ta)
       completion).
Proof. split; [done|]. by eexists. Qed.

(** C9: every successful submission on [POST /r/{id}] stores a response
    whose identifier is ["chatcmpl-" + id], whose object tag is
    ["chat.completion"], whose [created] is the current time, whose model
    is the model field of the original request, or the default
    ["gpt-3.5-turbo"] when the request has none, and which has exactly one
    choice, with [finish_reason] ["stop"]. *)
Theorem submission_envelope now call_uuid request_id rt c tn ta st r st' :
  modify_request now call_uuid request_id rt c tn ta st = (Ok r, st') ->
  exists entry resp,
    st !! request_id = Some entry /\
    st' = <[request_id := set_response entry resp]> st /\
    has_envelope now request_id (request entry) resp.
Proof.
  intros H.
  apply modify_request_inv in H as (entry & resp & Hentry & Hresp & _ & ->).
  exists entry, resp. split; [done|]. split; [done|].
  apply build_response_inv in Hresp as (model & p & msg & n & Hmodel & Hp & _ & ->).
  destruct (prompt_tokens_dict _ _ Hp) as [d Hd]. rewrite Hd in *.
  by apply completion_response_envelope.
Qed.

Lemma submission_envelope_witness :
  exists entry resp,
    one_pending !! "r1" = Some entry /\
    snd (modify_request 7 "u" "r1" "content" (Some "hello world") None None one_pending)
    = <["r1" := set_response entry resp]> one_pending /\
    has_envelope 7 "r1" (request entry) resp.
Proof.
  apply (submission_envelope 7 "u" "r1" "content" (Some "hello world") None None
           one_pending (RedirectResponse "/")).
  vm_compute. reflexivity.
Defined.

Lemma prompt_tokens_hi d :
  dict_get "messages" d = Some hi_messages -> prompt_tokens (JDict d) = Ok 1.
Proof. intros H. unfold prompt_tokens, py_get. rewrite H. reflexivity. Qed.

(** C2: submitting [response_type=content] with content ["hello world"]
    for a pending request whose messages are
    [[{"role": "user", "content": "hi"}]] succeeds and stores a response
    with [choices[0].message.content == "hello world"], no [tool_calls],
    [usage.prompt_tokens == 1], [usage.completion_tokens == 2] and
    [usage.total_tokens == 3]. *)
Theorem content_round_trip now call_uuid request_id tn ta (st : store) entry d :
  st !! request_id = Some entry ->
  request entry = JDict d ->
  dict_get "messages" d = Some hi_messages ->
  exists resp,
    modify_request now call_uuid request_id "content" (Some "hello world") tn ta st
    = (Ok (RedirectResponse "/"), <[request_id := set_response entry resp]> st) /\
    get_in (message0 ++ [Key "content"]) resp = Some (JStr "hello world") /\
    get_in (message0 ++ [Key "tool_calls"]) resp = None /\
    has_usage 1 2 3 resp.
Proof.
  intros Hentry Hd Hmsgs.
  eexists. split.
  - apply modify_request_found; [done|]. rewrite Hd.
    apply build_response_content; [reflexivity|by apply prompt_tokens_hi].
  - by repeat split.
Qed.

Lemma content_round_trip_witness :
  exists resp,
    modify_request 7 "u" "r1" "content" (Some "hello world") None None one_pending
    = (Ok (RedirectResponse "/"),
       <["r1" := set_response (new_request hi_payload) resp]> one_pending) /\
    get_in (message0 ++ [Key "content"]) resp = Some (JStr "hello world") /\
    get_in (message0 ++ [Key "tool_calls"]) resp = None /\
    has_usage 1 2 3 resp.
Proof.
  apply (content_round_trip 7 "u" "r1" None None one_pending (new_request hi_payload)
           [("model", JStr "gpt-4"); ("messages", hi_messages)]);
    reflexivity.
Defined.

Lemma tool_call_submission now call_uuid request_id rt c tn ta (st : store) entry p :
  String.eqb rt "content" = false ->
  st !! request_id = Some entry ->
  prompt_tokens (request entry) = Ok p ->
  exists resp,
    modify_request now call_uuid request_id rt c (Some tn) (Some ta) st
    = (Ok (RedirectResponse "/"), <[request_id := set_response entry resp]> st) /\
    single_tool_call tn ta resp.
Proof.
  intros Hrt Hentry Hp.
  destruct (prompt_tokens_dict _ _ Hp) as [d Hd].
  eexists. split.
  - apply modify_request_found; [done|].
    apply build_response_tool_call; [done| |done].
    rewrite Hd. reflexivity.
  - apply tool_call_message_single.
Qed.

(** C3: submitting [response_type=tool_call] with tool name ["lookup"] and
    arguments ['{"q":"x"}'] for a pending request stores a response with
    [choices[0].message.content == null] and exactly one tool call, whose
    function name and arguments are the submitted strings; and so for
    every arguments string, JSON or not: it is stored as submitted. *)
Theorem tool_call_verbatim now call_uuid request_id c (st : store) entry p :
  st !! request_id = Some entry ->
  prompt_tokens (request entry) = Ok p ->
  (exists resp,
     modify_request now call_uuid request_id "tool_call" c
       (Some "lookup") (Some lookup_arguments) st
     = (Ok (RedirectResponse "/"), <[request_id := set_response entry resp]> st) /\
     single_tool_call "lookup" lookup_arguments resp) /\
  (forall tool_name tool_arguments, exists resp,
     modify_request now call_uuid request_id "tool_call" c
       (Some tool_name) (Some tool_arguments) st
     = (Ok (RedirectResponse "/"), <[request_id := set_response entry resp]> st) /\
     single_tool_call tool_name tool_arguments resp).
Proof.
  intros Hentry Hp. split; [|intros tn ta]; by eapply tool_call_submission.
Qed.

Lemma tool_call_verbatim_witness :
  (exists resp,
     modify_request 7 "u" "r1" "tool_call" None (Some "lookup") (Some lookup_arguments)
       one_pending
     = (Ok (RedirectResponse "/"),
        <["r1" := set_response (new_request hi_payload) resp]> one_pending) /\
     single_tool_call "lookup" lookup_arguments resp) /\
  (forall tool_name tool_arguments, exists resp,
     modify_request 7 "u" "r1" "tool_call" None (Some tool_name) (Some tool_arguments)
       one_pending
     = (Ok (RedirectResponse "/"),
        <["r1" := set_response (new_request hi_payload) resp]> one_pending) /\
     single_tool_call tool_name tool_arguments resp).
Proof.
  apply (tool_call_verbatim 7 "u" "r1" None one_pending (new_request hi_payload) 1);
    reflexivity.
Defined.







(** ** Resolving twice *)

(** C1, as stated, fails: on a store with one pending request, a second
    resolve of the same id is not rejected. *)
Lemma second_resolve_not_rejected :
  ~ second_resolve_rejected first_resolve second_resolve one_pending /\
  fst (second_resolve (snd (first_resolve one_pending))) = Ok (RedirectResponse "/") /\
  snd (second_resolve (snd (first_resolve one_pending))) <> snd (first_resolve one_pending).
Proof.
  split; [|split].
  - intros (_ & [e He] & _). vm_compute in He. discriminate He.
  - vm_compute. reflexivity.
  - intros H. apply (f_equal (fun m : store => response <$> m !! "r1")) in H.
    vm_compute in H. discriminate H.
Qed.

Lemma set_response_twice entry resp1 resp2 :
  set_response (set_response entry resp1) resp2 = set_response entry resp2.
Proof. reflexivity. Qed.

(** C1, amended: a resolve of an id whose entry is already resolved and
    not yet consumed is handled like a first resolve.  When its response
    can be built it succeeds, and the store it leaves is the store before
    the first resolve with the second response in the entry: the stored
    response is the result of the second call only, and nothing of the
    first remains. *)
Theorem second_resolve_overwrites
    now1 uuid1 rt1 c1 tn1 ta1 now2 uuid2 rt2 c2 tn2 ta2
    request_id (st st1 : store) r1 entry resp2 :
  modify_request now1 uuid1 request_id rt1 c1 tn1 ta1 st = (Ok r1, st1) ->
  st !! request_id = Some entry ->
  build_response now2 uuid2 request_id (request entry) rt2 c2 tn2 ta2 = Ok resp2 ->
  modify_request now2 uuid2 request_id rt2 c2 tn2 ta2 st1
  = (Ok (RedirectResponse "/"), <[request_id := set_response entry resp2]> st) /\
  response <$> (snd (modify_request now2 uuid2 request_id rt2 c2 tn2 ta2 st1) !! request_id)
  = Some resp2.
Proof.
  intros H1 Hentry H2.
  apply modify_request_inv in H1 as (entry' & resp1 & Hentry' & _ & _ & ->).
  assert (entry' = entry) as -> by congruence.
  assert (modify_request now2 uuid2 request_id rt2 c2 tn2 ta2
            (<[request_id := set_response entry resp1]> st)
          = (Ok (RedirectResponse "/"), <[request_id := set_response entry resp2]> st))
    as Heq.
  { erewrite modify_request_found; [|apply lookup_insert_eq|exact H2].
    by rewrite set_response_twice, insert_insert_eq. }
  split; [exact Heq|].
  rewrite Heq. cbn [snd]. by rewrite lookup_insert_eq.
Qed.

Lemma second_resolve_overwrites_witness :
  second_resolve (snd (first_resolve one_pending))
  = (Ok (RedirectResponse "/"),
     <["r1" := set_response (new_request hi_payload)
                 (completion_response "r1" 2 (JStr "gpt-4") 1
                    (content_message "second") 1)]> one_pending) /\
  response <$> (snd (second_resolve (snd (first_resolve one_pending))) !! "r1")
  = Some (completion_response "r1" 2 (JStr "gpt-4") 1 (content_message "second") 1).
Proof.
  apply (second_resolve_overwrites 1 "u1" "content" (Some "first answer") None None
           2 "u2" "content" (Some "second") None None "r1" one_pending
           (snd (first_resolve one_pending)) (RedirectResponse "/")
           (new_request hi_payload));
    vm_compute; reflexivity.
Defined.

(** ** Unknown and consumed identifiers *)

Lemma consume_removes request_id (st st' : store) r :
  consume request_id st = (Ok r, st') -> st' !! request_id = None.
Proof.
  unfold consume. destruct (st !! request_id) as [entry|]; [|discriminate].
  destruct (json_compliant (response entry)); [|discriminate].
  intros H. inversion H. apply lookup_delete_eq.
Qed.

Lemma chat_completions_removes request_id body others (st st' : store) r :
  chat_completions request_id body others st = Some (Ok r, st') ->
  st' !! request_id = None.
Proof.
  unfold chat_completions. destruct body as [payload|]; [|discriminate].
  destruct (wait _ _ _) as [st2|]; [|discriminate].
  intros H. injection H as H. by eapply consume_removes.
Qed.

(** C7: for an id that was never created, or whose entry the waiting call
    has consumed, [GET /r/{id}] and [POST /r/{id}] both fail with the
    client error 404, "Request not found", and leave the store as it is. *)
Theorem unknown_id_not_found json_dumps create now call_uuid request_id rt c tn ta
    (st : store) :
  st !! request_id = None \/
  (exists body others st0 r,
     chat_completions request_id body others st0 = Some (Ok r, st)) ->
  get_request json_dumps create request_id st
  = (Raise (HTTPException 404 "Request not found"), st) /\
  modify_request now call_uuid request_id rt c tn ta st
  = (Raise (HTTPException 404 "Request not found"), st) /\
  client_error (status_of (Raise (HTTPException 404 "Request not found"))) = true.
Proof.
  intros H.
  assert (st !! request_id = None) as Habsent.
  { destruct H as [H|(body & others & st0 & r & H)]; [done|].
    by eapply chat_completions_removes. }
  split; [|split].
  - unfold get_request. by rewrite Habsent.
  - by apply modify_request_absent.
  - reflexivity.
Qed.

Lemma unknown_id_not_found_witness :
  get_request (fun _ => EmptyString) (fun _ => Raise (Exception "offline")) "r1" ∅
  = (Raise (HTTPException 404 "Request not found"), ∅) /\
  modify_request 7 "u" "r1" "content" (Some "late") None None ∅
  = (Raise (HTTPException 404 "Request not found"), ∅) /\
  client_error (status_of (Raise (HTTPException 404 "Request not found"))) = true.
Proof.
  apply (unknown_id_not_found (fun _ => EmptyString) (fun _ => Raise (Exception "offline"))
           7 "u" "r1" "content" (Some "late") None None ∅).
  right.
  exists (Ok hi_payload),
    [fun st => snd (modify_request 7 "u" "r1" "content" (Some "hello world") None None st)],
    ∅,
    (JSONResponse (completion_response "r1" 7 (JStr "gpt-4") 1
                     (content_message "hello world") 2)).
  vm_compute. reflexivity.
Defined.

(** ** The waiter and a removed entry *)

Lemma run_keeps request_id entry tasks (st : store) :
  Forall (keeps request_id entry) tasks ->
  st !! request_id = Some entry ->
  run tasks st !! request_id = Some entry.
Proof.
  intros Hquiet. revert st.
  induction Hquiet as [|task tasks Htask _ IH]; intros st Hentry; cbn; [done|].
  apply IH. by apply Htask.
Qed.

Lemma still_pending_entry request_id entry (st : store) :
  st !! request_id = Some entry ->
  still_pending request_id st = is_None (response entry).
Proof. intros H. unfold still_pending. by rewrite H. Qed.

Lemma wait_keeps request_id entry quiet more (st : store) :
  Forall (keeps request_id entry) quiet ->
  is_None (response entry) = true ->
  st !! request_id = Some entry ->
  wait (quiet ++ more) request_id st = wait more request_id (run quiet st).
Proof.
  intros Hquiet Hnone. revert st.
  induction Hquiet as [|task tasks Htask _ IH]; intros st Hentry; [done|].
  cbn. rewrite (still_pending_entry _ entry), Hnone by done.
  apply IH. by apply Htask.
Qed.

Lemma modify_request_other now call_uuid request_id rt c tn ta (st : store) other :
  other <> request_id ->
  snd (modify_request now call_uuid request_id rt c tn ta st) !! other = st !! other.
Proof.
  intros Hne. unfold modify_request.
  destruct (st !! request_id) as [entry|]; [|done].
  destruct (build_response _ _ _ _ _ _ _ _); [|done].
  cbn [snd]. by apply lookup_insert_ne.
Qed.

Lemma resolve_other_keeps now call_uuid request_id rt c tn ta other entry :
  other <> request_id ->
  keeps other entry (resolve now call_uuid request_id rt c tn ta).
Proof.
  intros Hne st Hentry. unfold resolve. by rewrite modify_request_other.
Qed.







(** ** A body that is not JSON *)

(** C4, as stated, fails: the decode error of a malformed body is not
    answered with a client-error status. *)
Lemma malformed_body_not_client_error :
  ~ rejected_as_client_error (chat_completions "r1" malformed [] ∅) ∅ /\
  (status_of <$> (fst <$> chat_completions "r1" malformed [] ∅)) = Some 500.
Proof.
  split; [|reflexivity].
  intros (r & st' & H & Hstatus & _).
  injection H as <- <-. discriminate Hstatus.
Qed.

(** C4, amended: on a body that is not well-formed JSON the handler ends
    at once with the decode error of [request.json()], whatever the other
    tasks do; the error escapes the handler, so the status is 500, and no
    entry is created: the store is as it was. *)
Theorem malformed_body_rejected request_id msg others (st : store) :
  chat_completions request_id (Raise (JSONDecodeError msg)) others st
  = Some (Raise (JSONDecodeError msg), st) /\
  status_of (Raise (JSONDecodeError msg)) = 500 /\
  client_error 500 = false.
Proof. by repeat split. Qed.

(** ** The review page when the draft call fails *)

(** C8: for a pending entry, when the draft call to the upstream fails
    with any exception, [GET /r/{id}] still returns the review page, with
    an empty content, an empty tool name and empty tool arguments; the
    exception does not escape and the store is left as it is. *)
Theorem draft_failure_empty_draft json_dumps create request_id (st : store)
    entry kwargs e :
  st !! request_id = Some entry ->
  draft_kwargs (request entry) = Ok kwargs ->
  create kwargs = Raise e ->
  get_request json_dumps create request_id st
  = (Ok (HTMLResponse
           (html_content (json_dumps (request entry)) request_id
              EmptyString EmptyString EmptyString)),
     st).
Proof.
  intros Hentry Hkwargs Hcreate.
  unfold get_request, draft_for. by rewrite Hentry, Hkwargs, Hcreate.
Qed.

Lemma draft_failure_empty_draft_witness :
  get_request (fun _ => "{}") (fun _ => Raise (Exception "Connection error.")) "r1"
    one_pending
  = (Ok (HTMLResponse (html_content "{}" "r1" EmptyString EmptyString EmptyString)),
     one_pending).
Proof.
  apply (draft_failure_empty_draft (fun _ => "{}")
           (fun _ => Raise (Exception "Connection error.")) "r1" one_pending
           (new_request hi_payload) [("messages", hi_messages)]
           (Exception "Connection error."));
    reflexivity.
Defined.

(** ** The passthrough proxy *)

Lemma dict_get_dict_set {V} (k k' : string) (v : V) d :
  dict_get k (dict_set k' v d) = if String.eqb k k' then Some v else dict_get k d.
Proof.
  induction d as [|[k0 v0] d IH]; cbn.
  - by destruct (String.eqb k k').
  - destruct (String.eqb_spec k' k0) as [->|Hne]; cbn.
    + by destruct (String.eqb k k0).
    + rewrite IH. destruct (String.eqb_spec k k0) as [->|]; [|done].
      destruct (String.eqb_spec k0 k'); [congruence|done].
Qed.




Lemma dict_get_app_fresh {V} (k k' : string) (v : V) d :
  k <> k' -> dict_get k (d ++ [(k', v)]) = dict_get k d.
Proof.
  intros Hne. induction d as [|[k0 v0] d IH]; cbn.
  - by destruct (String.eqb_spec k k').
  - by rewrite IH.
Qed.


Lemma join_values_step joined value more :
  join_values (joined +:+ ", " +:+ value) more = join_values joined (value :: more).
Proof. reflexivity. Qed.







(** ** The waiter and the other tasks *)






(** X2: there is no timeout.  While the other tasks leave the entry of a
    call unresolved in the store, the call stays suspended, however many
    of them run. *)
Theorem unresolved_call_waits request_id payload others (st : store) :
  Forall (keeps request_id (new_request payload)) others ->
  chat_completions request_id (Ok payload) others st = None.
Proof.
  intros Hquiet. unfold chat_completions.
  set (st1 := <[request_id := new_request payload]> st).
  assert (st1 !! request_id = Some (new_request payload)) as Hentry
    by apply lookup_insert_eq.
  rewrite <- (app_nil_r others).
  rewrite (wait_keeps _ (new_request payload)) by done.
  cbn [wait].
  by rewrite (still_pending_entry _ _ _ (run_keeps _ _ _ _ Hquiet Hentry)).
Qed.

Lemma unresolved_call_waits_witness :
  chat_completions "r1" (Ok hi_payload)
    [resolve 5 "u0" "r0" "content" (Some "other") None None;
     resolve 6 "u2" "r2" "tool_call" None (Some "lookup") (Some "{}")] ∅
  = None.
Proof.
  apply unresolved_call_waits.
  repeat (apply Forall_cons_2; [apply resolve_other_keeps; discriminate|]).
  apply Forall_nil_2.
Defined.



(** ** What a submission changes *)

(** X4: a submission never adds or removes an entry, never touches the
    entry of another id, and never changes the original payload of its
    own; when it fails, the store is exactly as before. *)
Theorem submission_frame now call_uuid request_id rt c tn ta (st : store) :
  let st' := snd (modify_request now call_uuid request_id rt c tn ta st) in
  dom st' = dom st /\
  (forall other, other <> request_id -> st' !! other = st !! other) /\
  request <$> st' !! request_id = request <$> st !! request_id /\
  (forall e,
     fst (modify_request now call_uuid request_id rt c tn ta st) = Raise e -> st' = st).
Proof.
  cbn zeta. split; [|split; [|split]].
  - unfold modify_request.
    destruct (st !! request_id) as [entry|] eqn:Hentry; [|done].
    destruct (build_response _ _ _ _ _ _ _ _); [|done].
    cbn [snd]. apply dom_insert_lookup_L. eauto.
  - intros other Hne. by apply modify_request_other.
  - unfold modify_request.
    destruct (st !! request_id) as [entry|] eqn:Hentry; cbn [snd].
    2: { by rewrite Hentry. }
    destruct (build_response _ _ _ _ _ _ _ _); cbn [snd].
    + by rewrite lookup_insert_eq.
    + by rewrite Hentry.
  - intros e. unfold modify_request.
    destruct (st !! request_id) as [entry|]; [|done].
    by destruct (build_response _ _ _ _ _ _ _ _).
Qed.

Lemma submission_frame_witness :
  snd (modify_request 7 "u" "r1" "content" None None None one_pending) = one_pending.
Proof.
  destruct (submission_frame 7 "u" "r1" "content" None None None one_pending)
    as (_ & _ & _ & H).
  apply (H (AttributeError "'NoneType' object has no attribute 'split'")).
  reflexivity.
Defined.

(** X5: a submission that lacks the field its branch reads (the content
    for ["content"], the tool name or the tool arguments for any other
    type) fails with the [AttributeError] of [None.split()], which the
    framework answers with 500; the entry stays unresolved. *)
Theorem missing_field_fails now call_uuid request_id rt c tn ta (st : store) entry p :
  st !! request_id = Some entry ->
  prompt_tokens (request entry) = Ok p ->
  (rt = "content" /\ c = None) \/ (rt <> "content" /\ (tn = None \/ ta = None)) ->
  modify_request now call_uuid request_id rt c tn ta st
  = (Raise (AttributeError "'NoneType' object has no attribute 'split'"), st) /\
  status_of (Raise (AttributeError "'NoneType' object has no attribute 'split'")) = 500.
Proof.
  intros Hentry Hp Hmissing. split; [|reflexivity].
  destruct (prompt_tokens_dict _ _ Hp) as [d Hd].
  unfold modify_request. rewrite Hentry.
  unfold build_response. rewrite Hp, Hd. cbn [py_get bind].
  destruct Hmissing as [[-> ->]|[Hrt Hnone]].
  - reflexivity.
  - apply String.eqb_neq in Hrt. rewrite Hrt.
    destruct Hnone as [->| ->]; [reflexivity|].
    by destruct tn.
Qed.

Lemma missing_field_fails_witness :
  modify_request 7 "u" "r1" "tool_call" None (Some "lookup") None one_pending
  = (Raise (AttributeError "'NoneType' object has no attribute 'split'"), one_pending) /\
  status_of (Raise (AttributeError "'NoneType' object has no attribute 'split'")) = 500.
Proof.
  apply (missing_field_fails 7 "u" "r1" "tool_call" None (Some "lookup") None
           one_pending (new_request hi_payload) 1); [reflexivity|reflexivity|].
  right. split; [discriminate|]. by right.
Defined.

(** ** Counting the prompt tokens *)

Lemma sum_tokens_countable messages acc :
  forallb countable_message messages = true ->
  sum_tokens messages acc = Ok (acc + total_tokens messages).
Proof.
  revert acc. induction messages as [|m messages IH]; intros acc Hall; cbn.
  - f_equal. lia.
  - cbn in Hall. apply andb_prop in Hall as [Hm Hall].
    destruct m as [| | | | | |fields]; try discriminate Hm.
    cbn in Hm |- *. unfold content_of in *.
    destruct (dict_get "content" fields) as [v|]; cbn.
    + destruct v; try discriminate Hm. cbn. rewrite IH by done.
      f_equal. unfold tokens. fold (total_tokens messages). lia.
    + rewrite IH by done. f_equal. unfold tokens. cbn.
      fold (total_tokens messages). lia.
Qed.

Lemma total_tokens_nonneg messages : 0 <= total_tokens messages.
Proof.
  induction messages as [|m messages IH]; cbn; [lia|].
  fold (total_tokens messages).
  assert (0 <= message_tokens m); [|lia].
  destruct m as [| | | | | |fields]; cbn; try lia.
  destruct (content_of fields); unfold tokens; lia.
Qed.

(** X6: for a payload whose messages are dicts with a string content, or
    none, the prompt tokens are the sum of the word counts of the
    contents, a message without content counting 0; a payload without
    messages counts 0.  The count is never negative. *)
Theorem prompt_tokens_counts d messages :
  py_get (JDict d) "messages" (JList []) = Ok (JList messages) ->
  forallb countable_message messages = true ->
  prompt_tokens (JDict d) = Ok (total_tokens messages) /\
  0 <= total_tokens messages /\
  (dict_get "messages" d = None -> prompt_tokens (JDict d) = Ok 0).
Proof.
  intros Hget Hall. split; [|split].
  - unfold prompt_tokens. rewrite Hget. cbn [bind py_iter].
    by rewrite sum_tokens_countable.
  - apply total_tokens_nonneg.
  - intros Hnone. unfold prompt_tokens. cbn. by rewrite Hnone.
Qed.

Lemma prompt_tokens_counts_witness :
  prompt_tokens hi_payload = Ok 1.
Proof.
  apply (prompt_tokens_counts [("model", JStr "gpt-4"); ("messages", hi_messages)]
           [JDict [("role", JStr "user"); ("content", JStr "hi")]]);
    reflexivity.
Defined.

Lemma sum_tokens_uncountable good fields v rest acc :
  forallb countable_message good = true ->
  content_of fields = v ->
  (forall s, v <> JStr s) ->
  sum_tokens (good ++ JDict fields :: rest) acc = Raise (no_attribute v "split").
Proof.
  intros Hgood Hv Hnot. revert acc.
  induction good as [|m good IH]; intros acc.
  - cbn. unfold content_of in Hv. rewrite <- Hv.
    destruct (dict_get "content" fields) as [w|]; cbn.
    + subst v. destruct w; try reflexivity. by destruct (Hnot s).
    + by destruct (Hnot EmptyString).
  - cbn in Hgood. apply andb_prop in Hgood as [Hm Hgood].
    destruct m as [| | | | | |mf]; try discriminate Hm.
    cbn in Hm |- *. unfold content_of in Hm.
    destruct (dict_get "content" mf) as [w|]; cbn.
    + destruct w; try discriminate Hm. cbn. by apply IH.
    + by apply IH.
Qed.

(** X7: when a message of the original request has a content that is not
    a string (a [null], as in an assistant turn that only calls tools, or
    a list of parts), every submission for that request fails with the
    [AttributeError] of its [split], whatever is submitted, and the entry
    stays unresolved. *)
Theorem uncountable_message_blocks now call_uuid request_id rt c tn ta (st : store)
    entry d good fields v rest :
  st !! request_id = Some entry ->
  request entry = JDict d ->
  dict_get "messages" d = Some (JList (good ++ JDict fields :: rest)) ->
  forallb countable_message good = true ->
  content_of fields = v ->
  (forall s, v <> JStr s) ->
  modify_request now call_uuid request_id rt c tn ta st
  = (Raise (no_attribute v "split"), st).
Proof.
  intros Hentry Hd Hmsgs Hgood Hv Hnot.
  unfold modify_request. rewrite Hentry, Hd.
  unfold build_response, prompt_tokens. cbn [py_get bind].
  rewrite Hmsgs. cbn [from_option bind py_iter].
  by rewrite (sum_tokens_uncountable good fields v rest).
Qed.

Lemma uncountable_message_blocks_witness :
  modify_request 7 "u" "r1" "content" (Some "sunny") None None
    {["r1" := new_request tool_turn_payload]}
  = (Raise (AttributeError "'NoneType' object has no attribute 'split'"),
     {["r1" := new_request tool_turn_payload]}).
Proof.
  apply (uncountable_message_blocks 7 "u" "r1" "content" (Some "sunny") None None
           {["r1" := new_request tool_turn_payload]} (new_request tool_turn_payload)
           [("model", JStr "gpt-4");
            ("messages",
             JList [JDict [("role", JStr "user"); ("content", JStr "what is the weather")];
                    JDict [("role", JStr "assistant"); ("content", JNull)]])]
           [JDict [("role", JStr "user"); ("content", JStr "what is the weather")]]
           [("role", JStr "assistant"); ("content", JNull)] JNull []);
    try reflexivity.
  intros s. discriminate.
Defined.

Lemma build_response_non_dict now call_uuid request_id payload rt c tn ta :
  (forall d, payload <> JDict d) ->
  build_response now call_uuid request_id payload rt c tn ta
  = Raise (no_attribute payload "get").
Proof. intros Hnot. destruct payload; try reflexivity. by destruct (Hnot fields). Qed.

Lemma modify_request_failed now call_uuid request_id rt c tn ta (st : store) entry e :
  st !! request_id = Some entry ->
  build_response now call_uuid request_id (request entry) rt c tn ta = Raise e ->
  modify_request now call_uuid request_id rt c tn ta st = (Raise e, st).
Proof. intros Hentry He. unfold modify_request. by rewrite Hentry, He. Qed.

(** X8: the interception accepts any JSON value, but a request whose body
    is not a JSON object cannot be resolved: every submission for it fails
    with an [AttributeError], so however many submissions are made, for
    this id or for others, its call stays suspended. *)
Theorem non_object_never_resolved request_id payload others (st : store) :
  (forall d, payload <> JDict d) ->
  Forall is_resolve others ->
  (forall now call_uuid rt c tn ta (st1 : store),
     st1 !! request_id = Some (new_request payload) ->
     modify_request now call_uuid request_id rt c tn ta st1
     = (Raise (no_attribute payload "get"), st1)) /\
  chat_completions request_id (Ok payload) others st = None.
Proof.
  intros Hnot Hothers.
  assert (forall now call_uuid rt c tn ta (st1 : store),
            st1 !! request_id = Some (new_request payload) ->
            modify_request now call_uuid request_id rt c tn ta st1
            = (Raise (no_attribute payload "get"), st1)) as Hfail.
  { intros. apply (modify_request_failed _ _ _ _ _ _ _ _ (new_request payload)); [done|].
    by apply build_response_non_dict. }
  split; [exact Hfail|].
  assert (Forall (keeps request_id (new_request payload)) others) as Hkeep.
  { eapply Forall_impl; [exact Hothers|]. 
    intros task (now & call_uuid & other & rt & c & tn & ta & ->).
    destruct (decide (other = request_id)) as [->|Hne].
    - intros st1 Hentry. unfold resolve. by rewrite Hfail.
    - apply resolve_other_keeps. congruence. }
  unfold chat_completions.
  set (st1 := <[request_id := new_request payload]> st).
  assert (st1 !! request_id = Some (new_request payload)) as Hentry
    by apply lookup_insert_eq.
  rewrite <- (app_nil_r others).
  rewrite (wait_keeps _ (new_request payload)) by done.
  cbn [wait].
  by rewrite (still_pending_entry _ _ _ (run_keeps _ _ _ _ Hkeep Hentry)).
Qed.

Lemma non_object_never_resolved_witness :
  chat_completions "r1" (Ok (JList [JStr "hi"]))
    [resolve 7 "u" "r1" "content" (Some "hello") None None;
     resolve 8 "u" "r1" "tool_call" None (Some "lookup") (Some "{}")] ∅
  = None.
Proof.
  apply (non_object_never_resolved "r1" (JList [JStr "hi"])).
  - intros d. discriminate.
  - repeat (apply Forall_cons_2; [by repeat eexists|]). apply Forall_nil_2.
Defined.

(** ** The usage counters *)

Lemma sum_tokens_ge messages acc p :
  sum_tokens messages acc = Ok p -> acc <= p.
Proof.
  revert acc. induction messages as [|m messages IH]; intros acc; cbn.
  - intros [= <-]. lia.
  - destruct (py_get m "content" _) as [v|]; [|discriminate]. cbn [bind].
    destruct v; try discriminate. cbn [py_split_len bind].
    intros H. apply IH in H. lia.
Qed.

Lemma prompt_tokens_nonneg payload p : prompt_tokens payload = Ok p -> 0 <= p.
Proof.
  unfold prompt_tokens.
  destruct (py_get payload "messages" _) as [messages|]; [|discriminate].
  cbn [bind]. destruct (py_iter messages) as [items|]; [|discriminate].
  cbn [bind]. apply sum_tokens_ge.
Qed.

(** X9: in the response stored by any successful submission the three
    usage counters are integers that are not negative, and the total is
    the sum of the prompt and the completion counters. *)
Theorem usage_adds_up now call_uuid request_id rt c tn ta (st st' : store) r :
  modify_request now call_uuid request_id rt c tn ta st = (Ok r, st') ->
  exists entry resp p n,
    st' !! request_id = Some (set_response entry resp) /\
    has_usage p n (p + n) resp /\
    0 <= p /\ 0 <= n.
Proof.
  intros H.
  apply modify_request_inv in H as (entry & resp & _ & Hresp & _ & ->).
  apply build_response_inv in Hresp as (model & p & msg & n & _ & Hp & Hsub & ->).
  exists entry, (completion_response request_id now model p msg n), p, n.
  split; [apply lookup_insert_eq|]. split; [apply completion_response_usage|].
  split; [by eapply prompt_tokens_nonneg|].
  destruct Hsub; unfold tokens; lia.
Qed.

Lemma usage_adds_up_witness :
  exists entry resp p n,
    snd (modify_request 7 "u" "r1" "tool_call" None (Some "lookup") (Some "{}")
           one_pending) !! "r1"
    = Some (set_response entry resp) /\
    has_usage p n (p + n) resp /\
    0 <= p /\ 0 <= n.
Proof.
  apply (usage_adds_up 7 "u" "r1" "tool_call" None (Some "lookup") (Some "{}")
           one_pending _ (RedirectResponse "/")).
  vm_compute. reflexivity.
Defined.




(** ** Words *)

Lemma append_assoc (a b c : string) : (a +:+ b) +:+ c = a +:+ (b +:+ c).
Proof.
  induction a as [|x a IH]; [done|].
  change (String x ((a +:+ b) +:+ c) = String x (a +:+ b +:+ c)). by f_equal.
Qed.

Lemma append_empty_r (a : string) : a +:+ EmptyString = a.
Proof.
  induction a as [|x a IH]; [done|].
  change (String x (a +:+ EmptyString) = String x a). by f_equal.
Qed.

Lemma is_empty_append (a b : string) :
  is_empty (a +:+ b) = is_empty a && is_empty b.
Proof. by destruct a. Qed.

Lemma all_chars_append p (a b : string) :
  all_chars p (a +:+ b) = all_chars p a && all_chars p b.
Proof.
  induction a as [|x a IH]; [done|].
  change (p x && all_chars p (a +:+ b) = p x && all_chars p a && all_chars p b).
  by rewrite IH, andb_assoc.
Qed.

Lemma split_from_word pre w :
  all_chars (fun c => negb (isspace c)) w = true ->
  split_from pre w = if is_empty (pre +:+ w) then [] else [pre +:+ w].
Proof.
  revert pre. induction w as [|c w IH]; intros pre Hw; cbn.
  - by rewrite append_empty_r.
  - cbn in Hw. apply andb_prop in Hw as [Hc Hw].
    apply negb_true_iff in Hc. rewrite Hc, IH by done.
    by rewrite append_assoc.
Qed.

Lemma split_from_space pre (a b : string) c :
  isspace c = true ->
  split_from pre (a +:+ String c b) = split_from pre a ++ split b.
Proof.
  intros Hc. revert pre. induction a as [|x a IH]; intros pre.
  - change (EmptyString +:+ String c b) with (String c b). cbn.
    rewrite Hc. by destruct (is_empty pre).
  - change (String x a +:+ String c b) with (String x (a +:+ String c b)). cbn.
    destruct (isspace x); [|apply IH].
    destruct (is_empty pre); cbn; by rewrite IH.
Qed.

Lemma split_from_tokens pre s :
  all_chars (fun c => negb (isspace c)) pre = true ->
  Forall (fun w => is_word w = true) (split_from pre s).
Proof.
  revert pre. induction s as [|c s IH]; intros pre Hpre; cbn.
  - destruct (is_empty pre) eqn:Hempty; [done|].
    apply Forall_cons_2; [|done]. unfold is_word. by rewrite Hempty.
  - destruct (isspace c) eqn:Hc.
    + destruct (is_empty pre) eqn:Hempty; [by apply IH|].
      apply Forall_cons_2; [|by apply IH]. unfold is_word. by rewrite Hempty.
    + apply IH. rewrite all_chars_append, Hpre. cbn. by rewrite Hc.
Qed.

Lemma split_word w : is_word w = true -> split w = [w].
Proof.
  unfold is_word, split. intros Hw. apply andb_prop in Hw as [Hne Hw].
  rewrite split_from_word by done.
  change (EmptyString +:+ w) with w. by apply negb_true_iff in Hne as ->.
Qed.

(** X11: the word count that the usage counters use.  The pieces that
    [split] returns are words: none is empty and none holds whitespace;
    words joined by single spaces split back into the same words; and a
    text that is only whitespace, or empty, has no word. *)
Theorem split_words s words :
  Forall (fun w => is_word w = true) words ->
  Forall (fun w => is_word w = true) (split s) /\
  split (join_words words) = words /\
  (blank s = true -> split s = []).
Proof.
  intros Hwords. split; [|split].
  - by apply split_from_tokens.
  - induction Hwords as [|w rest Hw Hrest IH]; [done|].
    destruct rest as [|w' rest]; [by apply split_word|].
    change (join_words (w :: w' :: rest))
      with (w +:+ String " " (join_words (w' :: rest))).
    unfold split at 1. rewrite split_from_space by done.
    fold (split w). by rewrite split_word, IH.
  - unfold blank, split. induction s as [|c s IH]; [done|].
    cbn. intros H. apply andb_prop in H as [-> H]. by apply IH.
Qed.

Lemma split_words_witness :
  split "what is the weather" = ["what"; "is"; "the"; "weather"].
Proof.
  apply (split_words EmptyString ["what"; "is"; "the"; "weather"]).
  repeat (apply Forall_cons_2; [reflexivity|]). apply Forall_nil_2.
Defined.


(** ** The draft *)

Lemma lstrip_spec s :
  starts_with_space (lstrip s) = false /\
  exists a, s = a +:+ lstrip s /\ blank a = true.
Proof.
  induction s as [|c s [IHstart (a & IHeq & IHblank)]]; cbn.
  - split; [done|]. by exists EmptyString.
  - destruct (isspace c) eqn:Hc.
    + split; [done|]. exists (String c a). split.
      * change (String c s = String c (a +:+ lstrip s)). by f_equal.
      * unfold blank in *. cbn. by rewrite Hc.
    + split; [by cbn|]. by exists EmptyString.
Qed.

Lemma rstrip_spec s :
  ends_with_space (rstrip s) = false /\
  (starts_with_space s = false -> starts_with_space (rstrip s) = false) /\
  exists b, s = rstrip s +:+ b /\ blank b = true.
Proof.
  induction s as [|c s (IHend & _ & b & IHeq & IHblank)]; cbn.
  - repeat split; try done. by exists EmptyString.
  - destruct (rstrip s) as [|x r] eqn:Hr; cbn [is_empty andb].
    + destruct (isspace c) eqn:Hc.
      * repeat split; try done. exists (String c b). split.
        -- change (EmptyString +:+ b) with b in IHeq. by rewrite <- IHeq.
        -- unfold blank in *. cbn. by rewrite Hc.
      * split; [by cbn|]. split; [by cbn|]. exists b. split; [|done].
        change (String c s = String c (EmptyString +:+ b)). by f_equal.
    + split; [exact IHend|]. split; [by cbn|]. exists b. split; [|done].
      change (String c s = String c (String x r +:+ b)). by f_equal.
Qed.

Lemma strip_spec s :
  starts_with_space (strip s) = false /\
  ends_with_space (strip s) = false /\
  exists a b, s = a +:+ strip s +:+ b /\ blank a = true /\ blank b = true.
Proof.
  unfold strip.
  destruct (lstrip_spec s) as (Hstart & a & Ha & Hblank_a).
  destruct (rstrip_spec (lstrip s)) as (Hend & Hkeep & b & Hb & Hblank_b).
  split; [by apply Hkeep|]. split; [done|].
  exists a, b. split; [|done]. by rewrite <- Hb.
Qed.

(** X13: when the upstream answers with a text and no tool call, the
    draft is that text without the whitespace around it: what is left
    neither starts nor ends with whitespace, and the text is the draft
    between two runs of whitespace.  The tool name and the tool arguments
    of the draft are empty. *)
Theorem draft_content_stripped create kwargs choice more text :
  create kwargs = Ok {| openai.choices := choice :: more |} ->
  openai.tool_calls (openai.message choice) = None \/
  openai.tool_calls (openai.message choice) = Some [] ->
  openai.content (openai.message choice) = Some text ->
  draft_for create kwargs
  = {| draft_content := strip text;
       draft_tool_name := EmptyString;
       draft_tool_arguments := EmptyString |} /\
  starts_with_space (strip text) = false /\
  ends_with_space (strip text) = false /\
  exists a b, text = a +:+ strip text +:+ b /\ blank a = true /\ blank b = true.
Proof.
  intros Hcreate Htools Htext. split; [|apply strip_spec].
  unfold draft_for. rewrite Hcreate. cbn [bind read_draft openai.choices].
  rewrite Htext.
  assert ((if is_empty text then EmptyString else strip text) = strip text) as Hstrip
    by by destruct text.
  destruct Htools as [-> | ->]; by rewrite Hstrip.
Qed.

Lemma draft_content_stripped_witness :
  draft_for
    (fun _ => Ok {| openai.choices :=
                      [{| openai.message :=
                            {| openai.content := Some "  Hello there. ";
                               openai.tool_calls := None |} |}] |})
    []
  = {| draft_content := strip "  Hello there. ";
       draft_tool_name := EmptyString;
       draft_tool_arguments := EmptyString |} /\
  starts_with_space (strip "  Hello there. ") = false /\
  ends_with_space (strip "  Hello there. ") = false /\
  exists a b,
    "  Hello there. " = a +:+ strip "  Hello there. " +:+ b /\
    blank a = true /\ blank b = true.
Proof.
  apply (draft_content_stripped _ []
           {| openai.message :=
                {| openai.content := Some "  Hello there. ";
                   openai.tool_calls := None |} |} []);
    [reflexivity|by left|reflexivity].
Defined.

Lemma read_draft_one_kind completion d :
  read_draft completion = Ok d ->
  draft_content d = EmptyString \/
  (draft_tool_name d = EmptyString /\ draft_tool_arguments d = EmptyString).
Proof.
  unfold read_draft. destruct (openai.choices completion) as [|choice ?]; [discriminate|].
  destruct (openai.tool_calls (openai.message choice)) as [[|call ?]|];
    intros [= <-]; cbn; auto.
Qed.

(** X14: once the draft call can be made, [GET /r/{id}] always returns
    the review page and leaves the store as it is, whatever the upstream
    does.  The draft is of one kind: its content is empty, or its tool
    name and tool arguments are.  When the upstream names tool calls, the
    draft is the name and the arguments of the first one, as they are,
    and when it returns no choice at all, the draft is empty. *)
Theorem review_page_always json_dumps create request_id (st : store) entry kwargs :
  st !! request_id = Some entry ->
  draft_kwargs (request entry) = Ok kwargs ->
  let d := draft_for create kwargs in
  get_request json_dumps create request_id st
  = (Ok (HTMLResponse
           (html_content (json_dumps (request entry)) request_id
              (draft_content d) (draft_tool_name d) (draft_tool_arguments d))),
     st) /\
  (draft_content d = EmptyString \/
   (draft_tool_name d = EmptyString /\ draft_tool_arguments d = EmptyString)) /\
  (forall choice more call calls,
     create kwargs = Ok {| openai.choices := choice :: more |} ->
     openai.tool_calls (openai.message choice) = Some (call :: calls) ->
     d = {| draft_content := EmptyString;
            draft_tool_name := openai.name (openai.function call);
            draft_tool_arguments := openai.arguments (openai.function call) |}) /\
  (create kwargs = Ok {| openai.choices := [] |} -> d = empty_draft).
Proof.
  intros Hentry Hkwargs. cbn zeta. split; [|split; [|split]].
  - unfold get_request. by rewrite Hentry, Hkwargs.
  - unfold draft_for. destruct (create kwargs) as [completion|]; cbn [bind].
    + destruct (read_draft completion) as [d|] eqn:Hd; [|by left].
      by eapply read_draft_one_kind.
    + by left.
  - intros choice more call calls Hcreate Hcalls.
    unfold draft_for. rewrite Hcreate. cbn [bind read_draft openai.choices].
    by rewrite Hcalls.
  - intros Hcreate. unfold draft_for. by rewrite Hcreate.
Qed.

Lemma review_page_always_witness :
  draft_for (fun _ => Ok {| openai.choices := [] |}) [("messages", hi_messages)]
  = empty_draft.
Proof.
  destruct (review_page_always (fun _ => EmptyString)
              (fun _ => Ok {| openai.choices := [] |}) "r1" one_pending
              (new_request hi_payload) [("messages", hi_messages)])
    as (_ & _ & _ & H); [reflexivity|reflexivity|].
  by apply H.
Defined.

Lemma copy_field_dict k d kwargs :
  copy_field k (JDict d) kwargs
  = Ok (match dict_get k d with
        | Some v => dict_set k v kwargs
        | None => kwargs
        end).
Proof.
  unfold copy_field. cbn [py_contains bind py_getitem].
  destruct (dict_get k d) as [v|]; [|done].
  by rewrite bool_decide_eq_true_2 by eauto.
Qed.

(** X15: for a request that is a JSON object, the draft call receives the
    [messages], [tools] and [tool_choice] fields that the request has,
    with their values, and no other field of the request: the model and
    the sampling parameters of the caller are not passed on. *)
Theorem draft_fields d :
  exists kwargs,
    draft_kwargs (JDict d) = Ok kwargs /\
    forall k, dict_get k kwargs = if is_draft_field k then dict_get k d else None.
Proof.
  unfold draft_kwargs.
  rewrite copy_field_dict. cbv beta iota delta [bind].
  rewrite copy_field_dict. cbv beta iota delta [bind].
  rewrite copy_field_dict. eexists. split; [reflexivity|].
  intros k. unfold is_draft_field.
  destruct (dict_get "tool_choice" d) as [v3|] eqn:H3;
    destruct (dict_get "tools" d) as [v2|] eqn:H2;
    destruct (dict_get "messages" d) as [v1|] eqn:H1;
    rewrite ?dict_get_dict_set; cbn [dict_get];
    destruct (String.eqb_spec k "messages");
    destruct (String.eqb_spec k "tools");
    destruct (String.eqb_spec k "tool_choice");
    cbn [orb]; congruence.
Qed.

(** X16: for a request whose body is a JSON number, boolean or [null],
    [GET /r/{id}] fails before any draft call, with the [TypeError] of
    the membership test, which the framework answers with 500; the store
    is left as it is. *)
Theorem scalar_payload_no_page json_dumps create request_id (st : store) entry :
  st !! request_id = Some entry ->
  is_scalar (request entry) = true ->
  get_request json_dumps create request_id st
  = (Raise (TypeError ("argument of type '" +:+ type_name (request entry)
                       +:+ "' is not iterable")), st) /\
  status_of (fst (get_request json_dumps create request_id st)) = 500.
Proof.
  intros Hentry Hscalar. unfold get_request. rewrite Hentry.
  by destruct (request entry).
Qed.

Lemma scalar_payload_no_page_witness :
  get_request (fun _ => "42") (fun _ => Raise (Exception "unused")) "r1"
    {["r1" := new_request (JInt 42)]}
  = (Raise (TypeError "argument of type 'int' is not iterable"),
     {["r1" := new_request (JInt 42)]}) /\
  status_of (fst (get_request (fun _ => "42") (fun _ => Raise (Exception "unused")) "r1"
                    {["r1" := new_request (JInt 42)]})) = 500.
Proof.
  apply (scalar_payload_no_page (fun _ => "42") (fun _ => Raise (Exception "unused"))
           "r1" {["r1" := new_request (JInt 42)]} (new_request (JInt 42)));
    reflexivity.
Defined.

(** ** The forwarded headers *)

Lemma dict_set_In {V} (k k' : string) (v v' : V) d :
  In (k, v) (dict_set k' v' d) -> (k, v) = (k', v') \/ In (k, v) d.
Proof.
  induction d as [|[k0 v0] d IH]; cbn.
  - intros [H|[]]. by left.
  - destruct (String.eqb_spec k' k0) as [->|Hne]; cbn.
    + intros [H|H]; [by left|by right; right].
    + intros [H|H]; [by right; left|].
      destruct (IH H) as [?|?]; [by left|by right; right].
Qed.

Lemma dict_set_keys {V} (k : string) (v : V) d :
  map fst (dict_set k v d)
  = match dict_get k d with
    | Some _ => map fst d
    | None => map fst d ++ [k]
    end.
Proof.
  induction d as [|[k0 v0] d IH]; cbn; [done|].
  destruct (String.eqb_spec k k0) as [->|Hne]; cbn; [done|].
  rewrite IH. by destruct (dict_get k d).
Qed.

Lemma dict_get_None_keys {V} (k : string) (d : list (string * V)) :
  dict_get k d = None -> k ∉ map fst d.
Proof.
  induction d as [|[k0 v0] d IH]; cbn; [intros _; apply not_elem_of_nil|].
  destruct (String.eqb_spec k k0) as [->|Hne]; [discriminate|].
  intros H. apply not_elem_of_cons. split; [done|by apply IH].
Qed.

Lemma dict_set_NoDup {V} (k : string) (v : V) d :
  NoDup (map fst d) -> NoDup (map fst (dict_set k v d)).
Proof.
  intros Hd. rewrite dict_set_keys.
  destruct (dict_get k d) eqn:Hk; [done|].
  apply NoDup_app. split; [done|]. split; [|apply NoDup_singleton].
  intros x Hx Hin. apply list_elem_of_singleton in Hin as ->.
  by apply dict_get_None_keys in Hk.
Qed.

Lemma header_dict_sound items acc :
  NoDup (map fst acc) ->
  NoDup (map fst (header_dict items acc)) /\
  forall key value,
    In (key, value) (header_dict items acc) ->
    In (key, value) acc \/ (In (key, value) items /\ is_host key = false).
Proof.
  revert acc. induction items as [|[k v] items IH]; intros acc Hacc; cbn.
  - split; [done|]. by left.
  - destruct (is_host k) eqn:Hk.
    + destruct (IH acc Hacc) as [Hnodup Hin]. split; [done|].
      intros key value H. destruct (Hin key value H) as [?|[? ?]]; [by left|].
      right. split; [by right|done].
    + destruct (IH (dict_set k v acc) (dict_set_NoDup k v acc Hacc)) as [Hnodup Hin].
      split; [done|].
      intros key value H. destruct (Hin key value H) as [Hset|[? ?]].
      * apply dict_set_In in Hset as [[= -> ->]|?]; [|by left].
        right. split; [by left|done].
      * right. split; [by right|done].
Qed.

(** X17: the headers argument that the handler gives to the client, the
    dict of lines 62 to 64, never has a header that the request did not
    have, never has a [Host] header, however it is capitalised, and never
    has two headers with the same name. *)
Theorem forwarded_headers_sound request :
  NoDup (map fst (forwarded_headers request)) /\
  forall key value,
    In (key, value) (forwarded_headers request) ->
    In (key, value) (starlette.headers request) /\ is_host key = false.
Proof.
  unfold forwarded_headers.
  destruct (header_dict_sound (starlette.headers request) []) as [Hnodup Hin].
  { apply NoDup_nil_2. }
  split; [done|].
  intros key value H. by destruct (Hin key value H) as [[]|?].
Qed.

Lemma forwarded_headers_sound_witness :
  In ("accept", "application/json") (starlette.headers two_accepts) /\
  is_host "accept" = false.
Proof.
  destruct (forwarded_headers_sound two_accepts) as [_ H].
  apply H. vm_compute. by left.
Defined.


Lemma lower_char_host (c x : ascii) :
  In x ["h"; "o"; "s"; "t"]%char ->
  lower_char c = x ->
  c = x \/ c = ascii_of_N (N_of_ascii x - 32).
Proof.
  intros Hx Hc.
  destruct Hx as [<-|[<-|[<-|[<-|[]]]]];
    destruct c as [[] [] [] [] [] [] [] []];
    first [discriminate Hc | by left | by right].
Qed.

(** X18: the header names that the proxy drops are the sixteen spellings
    of [host], with each letter in lower or upper case, and no other. *)
Theorem is_host_spellings key :
  is_host key = true <-> In key host_spellings.
Proof.
  split.
  - unfold is_host. intros H. apply String.eqb_eq in H.
    destruct key as [|c1 [|c2 [|c3 [|c4 [|c5 key]]]]]; try discriminate H.
    injection H as H1 H2 H3 H4.
    apply (lower_char_host c1) in H1 as [-> | ->]; [| |cbn; tauto];
      apply (lower_char_host c2) in H2 as [-> | ->]; try (cbn; tauto);
      apply (lower_char_host c3) in H3 as [-> | ->]; try (cbn; tauto);
      apply (lower_char_host c4) in H4 as [-> | ->]; try (cbn; tauto).
  - intros H. vm_compute in H.
    repeat (destruct H as [<-|H]; [reflexivity|]). destruct H.
Qed.
